(** * Verification of [torso_control.py] (pepper_vr_teleop)

    Shallow embedding of the [TorsoControl] ROS node: the torso-as-joystick
    linear velocity mapping, the shoulder-angle angular velocity mapping, the
    incremental slerp calibration and the control loop of [spin].

    Python floats are modelled by Coq's real numbers [R] (exact arithmetic).
    The [tf.transformations] helpers the node calls ([quaternion_matrix],
    [quaternion_inverse], [quaternion_multiply], [quaternion_slerp]) are
    transcribed from that library; transform lookups, the publisher and the
    ROS clock are the environment and are given to the functions as inputs. *)

From Stdlib Require Import Reals Lra Psatz List String.
Import ListNotations.
Open Scope R_scope.

(** ** Data *)

(** A quaternion [x, y, z, w] as tf stores it. *)
Record quat := Quat { qx : R; qy : R; qz : R; qw : R }.

(** A translation [x, y, z]. *)
Record vec3 := Vec3 { vx : R; vy : R; vz : R }.

(** [geometry_msgs/Vector3] and [geometry_msgs/Twist]. *)
Record Vector3 := Vector3_ { x : R; y : R; z : R }.
Record Twist := Twist_ { linear : Vector3; angular : Vector3 }.

Definition Vector3_zero : Vector3 := Vector3_ 0 0 0.
(** [Twist()]: every field defaults to 0. *)
Definition Twist_default : Twist := Twist_ Vector3_zero Vector3_zero.

(** ** Python built-ins *)

(** [min(a, b)]: the first argument unless the second is smaller. *)
Definition py_min (a b : R) : R := if Rlt_dec b a then b else a.
(** [max(a, b)]: the first argument unless the second is larger. *)
Definition py_max (a b : R) : R := if Rlt_dec a b then b else a.
(** [math.copysign(a, b)]: magnitude of [a], sign of [b]. *)
Definition copysign (a b : R) : R := if Rlt_dec b 0 then - Rabs a else Rabs a.

(** [math.atan2(y, x)] (C99 / Python semantics on the non-zero-signed reals). *)
Definition atan2 (y x : R) : R :=
  if Rlt_dec 0 x then atan (y / x)
  else if Rlt_dec x 0 then
    (if Rle_dec 0 y then atan (y / x) + PI else atan (y / x) - PI)
  else if Rlt_dec 0 y then PI / 2
  else if Rlt_dec y 0 then - (PI / 2)
  else 0.

(** ** tf.transformations *)

(** [_EPS = numpy.finfo(float).eps * 4.0] *)
Definition EPS : R := 4 * / (2 ^ 52).

Definition qdot (a b : quat) : R :=
  qx a * qx b + qy a * qy b + qz a * qz b + qw a * qw b.
Definition qscale (c : R) (a : quat) : quat :=
  Quat (c * qx a) (c * qy a) (c * qz a) (c * qw a).
Definition qadd (a b : quat) : quat :=
  Quat (qx a + qx b) (qy a + qy b) (qz a + qz b) (qw a + qw b).

(** [quaternion_matrix(q)]: the homogeneous rotation matrix of [q], as a
    function of the row and column index. *)
Definition quaternion_matrix (q : quat) (i j : nat) : R :=
  let nq := qdot q q in
  if Rlt_dec nq EPS then (if Nat.eqb i j then 1 else 0)
  else
    let s := 2 / nq in
    let '(a, b, c, d) := (qx q, qy q, qz q, qw q) in
    match i, j with
    | 0, 0 => 1 - s * (b * b) - s * (c * c)
    | 0, 1 => s * (a * b) - s * (c * d)
    | 0, 2 => s * (a * c) + s * (b * d)
    | 1, 0 => s * (a * b) + s * (c * d)
    | 1, 1 => 1 - s * (a * a) - s * (c * c)
    | 1, 2 => s * (b * c) - s * (a * d)
    | 2, 0 => s * (a * c) - s * (b * d)
    | 2, 1 => s * (b * c) + s * (a * d)
    | 2, 2 => 1 - s * (a * a) - s * (b * b)
    | 3, 3 => 1
    | _, _ => 0
    end.

(** [quaternion_inverse(q)]: conjugate divided by the squared norm. *)
Definition quaternion_inverse (q : quat) : quat :=
  let n := qdot q q in
  Quat (- qx q / n) (- qy q / n) (- qz q / n) (qw q / n).

(** [quaternion_multiply(quaternion1, quaternion0)] *)
Definition quaternion_multiply (q1 q0 : quat) : quat :=
  let '(x0, y0, z0, w0) := (qx q0, qy q0, qz q0, qw q0) in
  let '(x1, y1, z1, w1) := (qx q1, qy q1, qz q1, qw q1) in
  Quat (x1 * w0 + y1 * z0 - z1 * y0 + w1 * x0)
       (- x1 * z0 + y1 * w0 + z1 * x0 + w1 * y0)
       (x1 * y0 - y1 * x0 + z1 * w0 + w1 * z0)
       (- x1 * x0 - y1 * y0 - z1 * z0 + w1 * w0).

(** [unit_vector(q)] *)
Definition unit_vector (q : quat) : quat := qscale (/ sqrt (qdot q q)) q.

(** [quaternion_slerp(quat0, quat1, fraction, spin=0, shortestpath=True)] *)
Definition quaternion_slerp (quat0 quat1 : quat) (fraction : R) : quat :=
  let q0 := unit_vector quat0 in
  let q1 := unit_vector quat1 in
  if Req_dec_T fraction 0 then q0
  else if Req_dec_T fraction 1 then q1
  else
    let d := qdot q0 q1 in
    if Rlt_dec (Rabs (Rabs d - 1)) EPS then q0
    else
      let '(d, q1) := if Rlt_dec d 0 then (- d, qscale (-1) q1) else (d, q1) in
      (* spin = 0 *)
      let angle := acos d in
      if Rlt_dec (Rabs angle) EPS then q0
      else
        let isin := 1 / sin angle in
        qadd (qscale (sin ((1 - fraction) * angle) * isin) q0)
             (qscale (sin (fraction * angle) * isin) q1).

(** ** The node's state *)

(** Parameters read in [__init__] and the constants derived there. *)
Record Params := Params_ {
  calibration_time : R;
  deadband_x : R;
  deadband_y : R;
  deadband_angle : R;
  fixed_frame : string;
  joystick_frame : string;
  velocity_x_max : R;
  velocity_y_max : R;
  velocity_angular_max : R;
  max_user_tilt_angle : R;
  x_max_length : R;
  y_max_length : R;
  max_rotation : R
}.

(** The mutable members of a [TorsoControl] object, with the parameters, the
    messages handed to [cmd_vel_pub.publish] (oldest first) and whether
    [rospy.signal_shutdown] has been called. *)
Record TorsoControl := TorsoControl_ {
  params : Params;
  joystick_x : R;
  joystick_y : R;
  joystick_quaternion : quat;
  cmd_vel_msg : Twist;
  published : list Twist;
  shutdown_signalled : bool
}.

Definition set_joystick (st : TorsoControl) (jx jy : R) : TorsoControl :=
  TorsoControl_ (params st) jx jy (joystick_quaternion st) (cmd_vel_msg st)
                (published st) (shutdown_signalled st).

Definition set_joystick_quaternion (st : TorsoControl) (q : quat) : TorsoControl :=
  TorsoControl_ (params st) (joystick_x st) (joystick_y st) q (cmd_vel_msg st)
                (published st) (shutdown_signalled st).

Definition set_cmd_vel_msg (st : TorsoControl) (m : Twist) : TorsoControl :=
  TorsoControl_ (params st) (joystick_x st) (joystick_y st)
                (joystick_quaternion st) m (published st) (shutdown_signalled st).

(** [self.cmd_vel_pub.publish(self.cmd_vel_msg)] *)
Definition publish (st : TorsoControl) : TorsoControl :=
  TorsoControl_ (params st) (joystick_x st) (joystick_y st)
                (joystick_quaternion st) (cmd_vel_msg st)
                (published st ++ [cmd_vel_msg st]) (shutdown_signalled st).

Definition signal_shutdown (st : TorsoControl) : TorsoControl :=
  TorsoControl_ (params st) (joystick_x st) (joystick_y st)
                (joystick_quaternion st) (cmd_vel_msg st) (published st) true.

(** Field writes on the message: [msg.linear.x = v] and the like. *)
Definition set_linear_x (m : Twist) (v : R) : Twist :=
  Twist_ (Vector3_ v (y (linear m)) (z (linear m))) (angular m).
Definition set_linear_y (m : Twist) (v : R) : Twist :=
  Twist_ (Vector3_ (x (linear m)) v (z (linear m))) (angular m).
Definition set_angular_z (m : Twist) (v : R) : Twist :=
  Twist_ (linear m) (Vector3_ (x (angular m)) (y (angular m)) v).

(** [__init__]: the ROS parameters (with their defaults applied by the
    caller) and the derived saturation bounds; each deadband check that fails
    signals shutdown. *)
Definition make_params (calibration_time deadband_x deadband_y deadband_angle : R)
    (fixed_frame joystick_frame : string)
    (velocity_x_max velocity_y_max velocity_angular_max : R) : Params :=
  let max_user_tilt_angle := PI / 8 in
  Params_ calibration_time deadband_x deadband_y deadband_angle
          fixed_frame joystick_frame
          velocity_x_max velocity_y_max velocity_angular_max
          max_user_tilt_angle
          (cos (PI / 2 - max_user_tilt_angle))
          (cos (PI / 2 - max_user_tilt_angle))
          (PI / 4).

Definition TorsoControl_init (p : Params) : TorsoControl :=
  let st := TorsoControl_ p 0 0 (Quat 0 0 0 1) Twist_default [] false in
  let st := if Rle_dec (x_max_length p) (deadband_x p) then signal_shutdown st else st in
  let st := if Rle_dec (y_max_length p) (deadband_y p) then signal_shutdown st else st in
  if Rle_dec (max_rotation p) (deadband_angle p) then signal_shutdown st else st.

(** The node with every parameter at its default. *)
Definition default_params : Params :=
  make_params 3 0.2 0.2 (PI / 8) "camera_link" "joystick" 0.2 0.2 (PI / 4).

(** ** Velocity computations *)

(** The deadband / saturate / shift / rescale block that
    [calculateLinearVelocity] writes out for each axis (lines 232-244 and
    247-259) and [calculateAngularVelocity] for the angle (lines 293-304).
    Returns the final value of the scratch variable and the velocity (which
    starts at [0.0]). *)
Definition apply_deadband (deadband max_length velocity_max v : R) : R * R :=
  if Rlt_dec deadband (Rabs v) then
    (* Saturate *)
    let v := py_min v max_length in
    let v := py_max v (- max_length) in
    (* Shift the origin to the deadband position *)
    let v := v - copysign deadband v in
    (* Map to a range from 0 to 1 *)
    let v := v / (max_length - deadband) in
    (v, velocity_max * v)
  else (v, 0).

(** The velocity the block produces. *)
Definition deadband_scale (deadband max_length velocity_max raw : R) : R :=
  snd (apply_deadband deadband max_length velocity_max raw).

(** [calculateLinearVelocity(base_link_quaternion)]: returns
    [(velocity_x, velocity_y)] and the object with [joystick_x] and
    [joystick_y] overwritten. *)
Definition calculateLinearVelocity (st : TorsoControl) (base_link_quaternion : quat)
    : (R * R) * TorsoControl :=
  let p := params st in
  let j_R_b := quaternion_matrix base_link_quaternion in
  let joystick_x := j_R_b 0%nat 2%nat in
  let joystick_y := j_R_b 1%nat 2%nat in
  let '(joystick_x, velocity_x) :=
    apply_deadband (deadband_x p) (x_max_length p) (velocity_x_max p) joystick_x in
  let '(joystick_y, velocity_y) :=
    apply_deadband (deadband_y p) (y_max_length p) (velocity_y_max p) joystick_y in
  ((velocity_x, velocity_y), set_joystick st joystick_x joystick_y).

(** [calculateAngularVelocity(l_shoulder_position, r_shoulder_position)]:
    writes no member; the object is returned as it is. *)
Definition calculateAngularVelocity (st : TorsoControl)
    (l_shoulder_position r_shoulder_position : vec3) : R * TorsoControl :=
  let p := params st in
  let l_shoulder_x := vx l_shoulder_position - vx r_shoulder_position in
  let l_shoulder_y := vy l_shoulder_position - vy r_shoulder_position in
  let shoulder_theta := atan2 l_shoulder_y l_shoulder_x - PI / 2 in
  let '(_, velocity_angular) :=
    apply_deadband (deadband_angle p) (max_rotation p) (velocity_angular_max p)
                   shoulder_theta in
  (velocity_angular, st).

(** ** Transform lookups and the control loop *)

(** A [waitForTransform] + [lookupTransform] pair: the position and rotation,
    or [None] when tf raises [tf.Exception]. *)
Definition lookup := option (vec3 * quat).

(** [getTransforms()]: [None] stands for the [(None, None, None)] returned on
    any lookup error. The broadcast of the joystick frame only feeds the tf
    tree, which is part of the environment (the shoulder lookups). *)
Definition getTransforms (st : TorsoControl) (base : lookup)
    (l_lookup r_lookup : lookup) : option (quat * vec3 * vec3) :=
  match base with
  | None => None
  | Some (_, base_link_rotation) =>
      let q_joystick_inverse := quaternion_inverse (joystick_quaternion st) in
      let base_link := quaternion_multiply q_joystick_inverse base_link_rotation in
      match l_lookup with
      | None => None
      | Some (l_shoulder, _) =>
          match r_lookup with
          | None => None
          | Some (r_shoulder, _) => Some (base_link, l_shoulder, r_shoulder)
          end
      end
  end.

(** What the environment supplies to one pass of the [spin] loop: whether
    shutdown has been requested from outside, and the three lookups. *)
Record Tick := Tick_ {
  tick_shutdown : bool;
  tick_base : lookup;
  tick_l_shoulder : lookup;
  tick_r_shoulder : lookup
}.

(** [rospy.is_shutdown()] *)
Definition is_shutdown (st : TorsoControl) (t : Tick) : bool :=
  shutdown_signalled st || tick_shutdown t.

(** The body of the [while] loop of [spin] (lines 127-141). *)
Definition spin_body (st : TorsoControl) (t : Tick) : TorsoControl :=
  let st :=
    match getTransforms st (tick_base t) (tick_l_shoulder t) (tick_r_shoulder t) with
    | None =>
        let m := cmd_vel_msg st in
        let m := set_linear_x m 0 in
        let m := set_linear_y m 0 in
        let m := set_angular_z m 0 in
        set_cmd_vel_msg st m
    | Some (base_link, l_shoulder, r_shoulder) =>
        let '((velocity_x, velocity_y), st) := calculateLinearVelocity st base_link in
        let m := set_linear_y (set_linear_x (cmd_vel_msg st) velocity_x) velocity_y in
        let st := set_cmd_vel_msg st m in
        let '(velocity_angular, st) := calculateAngularVelocity st l_shoulder r_shoulder in
        set_cmd_vel_msg st (set_angular_z (cmd_vel_msg st) velocity_angular)
    end in
  publish st.

(** The [while not rospy.is_shutdown()] loop, run over the ticks the
    environment supplies. *)
Fixpoint spin_loop (st : TorsoControl) (ticks : list Tick) : TorsoControl :=
  match ticks with
  | [] => st
  | t :: rest => if is_shutdown st t then st else spin_loop (spin_body st t) rest
  end.

(** ** Calibration *)

(** The [while] loop of [calibrateJoystickPose] (lines 326-333). Each tick is
    the clock reading [rospy.get_time()] of the loop condition and the lookup
    that follows it when the condition holds. The current
    [self.joystick_quaternion] is threaded through; the result says whether
    the loop ended normally ([True]) or by [tf.Exception] ([False]) and
    carries the member's value at that point. *)
Fixpoint calibration_loop (calibration_time calibration_start : R) (count : nat)
    (joystick_quaternion : quat) (ticks : list (R * lookup)) : bool * quat :=
  match ticks with
  | [] => (true, joystick_quaternion)
  | (now, l) :: rest =>
      if Rlt_dec (now - calibration_start) calibration_time then
        match l with
        | None => (false, joystick_quaternion)
        | Some (_, new_quaternion) =>
            let count := S count in
            calibration_loop calibration_time calibration_start count
              (quaternion_slerp joystick_quaternion new_quaternion (1 / INR count))
              rest
        end
      else (true, joystick_quaternion)
  end.

(** [calibrateJoystickPose(msg)]: [calibration_start] is the clock reading
    at the start, [first] the first lookup and [ticks] the loop's clock
    readings and lookups. Returns the Python return value and the object. *)
Definition calibrateJoystickPose (st : TorsoControl) (calibration_start : R)
    (first : lookup) (ticks : list (R * lookup)) : bool * TorsoControl :=
  match first with
  | None => (false, st)
  | Some (_, q) =>
      let '(ok, jq) :=
        calibration_loop (calibration_time (params st)) calibration_start 1 q ticks in
      (ok, set_joystick_quaternion st jq)
  end.

(** ** The spec's averaging rule

    [avg_1 = sample_1] and [avg_k = slerp(avg_(k-1), sample_k, 1/k)], written
    after the spec's words for comparison with [calibrateJoystickPose]. *)
Fixpoint spec_avg (samples : list quat) (k : nat) : quat :=
  match k with
  | O | S O => nth 0 samples (Quat 0 0 0 1)
  | S k' => quaternion_slerp (spec_avg samples k') (nth k' samples (Quat 0 0 0 1))
                             (1 / INR k)
  end.

(** A successful lookup in the calibration loop: the clock reading of the
    loop condition and the position and rotation that were fetched. *)
Definition fetched (tp : R * (vec3 * quat)) : R * lookup := (fst tp, Some (snd tp)).

(** The orientation sample of a successful lookup. *)
Definition sample_of (tp : R * (vec3 * quat)) : quat := snd (snd tp).

(** ** Shutdown and the whole of [spin] *)

(** [shutdown()], the [on_shutdown] hook: zero the three velocity fields and
    publish the message. *)
Definition shutdown (st : TorsoControl) : TorsoControl :=
  let m := cmd_vel_msg st in
  let m := set_linear_x m 0 in
  let m := set_linear_y m 0 in
  let m := set_angular_z m 0 in
  publish (set_cmd_vel_msg st m).

(** [spin()]: the initial calibration, then the control loop. When the
    calibration fails, [rospy.signal_shutdown] runs the [on_shutdown] hook,
    but only on its first call: once shutdown is under way (for instance
    signalled by the deadband checks of [__init__]) it returns at once and
    the hooks are not run again.
    The [raw_input] prompt and the log lines are left out. *)
Definition spin (st : TorsoControl) (calibration_start : R) (first : lookup)
    (calibration_ticks : list (R * lookup)) (ticks : list Tick) : TorsoControl :=
  let '(ok, st) := calibrateJoystickPose st calibration_start first calibration_ticks in
  let st := if ok then st
            else if shutdown_signalled st then st
            else shutdown (signal_shutdown st) in
  spin_loop st ticks.

(** The number of loop passes before the first tick at which shutdown is
    requested from outside. *)
Fixpoint ticks_before_shutdown (ticks : list Tick) : nat :=
  match ticks with
  | [] => O
  | t :: rest => if tick_shutdown t then O else S (ticks_before_shutdown rest)
  end.

(** A velocity message within the configured maxima (in absolute value). *)
Definition msg_within (p : Params) (m : Twist) : Prop :=
  Rabs (x (linear m)) <= Rabs (velocity_x_max p) /\
  Rabs (y (linear m)) <= Rabs (velocity_y_max p) /\
  Rabs (z (angular m)) <= Rabs (velocity_angular_max p).

(** Every deadband lies strictly below its saturation bound. *)
Definition deadbands_valid (p : Params) : Prop :=
  deadband_x p < x_max_length p /\ deadband_y p < y_max_length p /\
  deadband_angle p < max_rotation p.

(** ** Concrete inputs *)

(** The node as [__init__] leaves it with every parameter at its default. *)
Definition default_node : TorsoControl := TorsoControl_init default_params.

(** The identity rotation. *)
Definition quat_identity : quat := Quat 0 0 0 1.

(** A quaternion whose tilt vector is [(0.1, 0.0)]. *)
Definition tilt_01 : quat := Quat 0 (10 - sqrt 99) 0 1.

(** Parameters with zero linear deadbands and negative velocity maxima
    (accepted by [__init__]: only the deadbands are checked). *)
Definition negative_max_params : Params :=
  make_params 3 0 0 (PI / 8) "camera_link" "joystick" (-0.2) (-0.2) (- (PI / 4)).

(** * Properties *)

(** ** The deadband block *)

(** Splits every [min], [max], [copysign] and [abs] of the goal and the
    hypotheses into its cases. *)
Ltac split_cases :=
  unfold py_min, py_max, copysign in *;
  repeat match goal with
         | |- context [Rlt_dec ?a ?b] => destruct (Rlt_dec a b)
         | H : context [Rlt_dec ?a ?b] |- _ => revert H
         end;
  intros;
  unfold Rabs in *;
  repeat match goal with
         | |- context [Rcase_abs ?a] => destruct (Rcase_abs a)
         | H : context [Rcase_abs ?a] |- _ => destruct (Rcase_abs a)
         end.

Lemma rescale_one (a b vm : R) : b <> 0 -> a = b -> vm * (a / b) = vm.
Proof. intros Hb ->. field. exact Hb. Qed.

Lemma rescale_minus_one (a b vm : R) : b <> 0 -> a = - b -> vm * (a / b) = - vm.
Proof. intros Hb ->. field. exact Hb. Qed.

Lemma rescale_bound (a b vm : R) : 0 < b -> Rabs a <= b -> Rabs (vm * (a / b)) <= Rabs vm.
Proof.
  intros Hb Ha.
  rewrite Rabs_mult. unfold Rdiv. rewrite Rabs_mult, Rabs_inv, (Rabs_pos_eq b) by lra.
  assert (Ht : Rabs a * / b <= 1).
  { replace 1 with (b * / b) by (field; lra).
    apply Rmult_le_compat_r; [left; apply Rinv_0_lt_compat; lra | exact Ha]. }
  assert (0 <= Rabs a * / b).
  { apply Rmult_le_pos; [apply Rabs_pos | left; apply Rinv_0_lt_compat; lra]. }
  pose proof (Rabs_pos vm). nra.
Qed.

Lemma deadband_scale_in_band (db s vm v : R) :
  Rabs v <= db -> deadband_scale db s vm v = 0.
Proof.
  intros H. unfold deadband_scale, apply_deadband.
  destruct (Rlt_dec db (Rabs v)); [lra | reflexivity].
Qed.

Lemma deadband_scale_saturated (db s vm v : R) :
  0 <= db < s -> s <= Rabs v ->
  deadband_scale db s vm v = if Rlt_dec v 0 then - vm else vm.
Proof.
  intros Hdb Hv. unfold deadband_scale, apply_deadband.
  destruct (Rlt_dec db (Rabs v)) as [_ | Hn]; [| lra]. simpl.
  destruct (Rlt_dec v 0) as [Hneg | Hpos].
  - apply rescale_minus_one; [lra |].
    revert Hv; split_cases; lra.
  - apply rescale_one; [lra |].
    revert Hv; split_cases; lra.
Qed.

Lemma shift_bound (db s v : R) :
  db < s -> db < Rabs v ->
  Rabs (py_max (py_min v s) (- s) - copysign db (py_max (py_min v s) (- s)))
    <= s - db.
Proof. intros H1 H2. revert H2. split_cases; lra. Qed.

Lemma deadband_scale_bound (db s vm v : R) :
  db < s -> Rabs (deadband_scale db s vm v) <= Rabs vm.
Proof.
  intros H. unfold deadband_scale, apply_deadband.
  destruct (Rlt_dec db (Rabs v)) as [Hv | _]; simpl.
  - apply rescale_bound; [lra | apply shift_bound; assumption].
  - rewrite Rabs_R0. apply Rabs_pos.
Qed.

Lemma shift_odd (db s v : R) :
  0 < s -> v <> 0 ->
  py_max (py_min (- v) s) (- s) - copysign db (py_max (py_min (- v) s) (- s))
  = - (py_max (py_min v s) (- s) - copysign db (py_max (py_min v s) (- s))).
Proof.
  intros Hs Hv.
  destruct (Rtotal_order v 0) as [Hlt | [Heq | Hgt]]; [| contradiction |];
    split_cases; lra.
Qed.

Lemma deadband_scale_odd (db s vm v : R) :
  0 < s -> (v <> 0 \/ 0 <= db) ->
  deadband_scale db s vm (- v) = - deadband_scale db s vm v.
Proof.
  intros Hs Hv. unfold deadband_scale, apply_deadband. rewrite Rabs_Ropp.
  destruct (Rlt_dec db (Rabs v)) as [Hb | Hb]; simpl.
  - assert (Hv0 : v <> 0).
    { destruct Hv as [Hv | Hv]; [exact Hv |].
      intros ->. rewrite Rabs_R0 in Hb. lra. }
    rewrite (shift_odd db s v Hs Hv0). unfold Rdiv. ring.
  - ring.
Qed.

(** ** The velocity functions in terms of the block *)

Lemma calculateLinearVelocity_velocities (st : TorsoControl) (q : quat) :
  fst (calculateLinearVelocity st q) =
  (deadband_scale (deadband_x (params st)) (x_max_length (params st))
                  (velocity_x_max (params st)) (quaternion_matrix q 0 2),
   deadband_scale (deadband_y (params st)) (y_max_length (params st))
                  (velocity_y_max (params st)) (quaternion_matrix q 1 2)).
Proof.
  unfold calculateLinearVelocity, deadband_scale.
  destruct (apply_deadband _ _ _ (quaternion_matrix q 0 2)).
  destruct (apply_deadband _ _ _ (quaternion_matrix q 1 2)).
  reflexivity.
Qed.

Lemma calculateLinearVelocity_state (st : TorsoControl) (q : quat) :
  snd (calculateLinearVelocity st q) =
  set_joystick st
    (fst (apply_deadband (deadband_x (params st)) (x_max_length (params st))
                         (velocity_x_max (params st)) (quaternion_matrix q 0 2)))
    (fst (apply_deadband (deadband_y (params st)) (y_max_length (params st))
                         (velocity_y_max (params st)) (quaternion_matrix q 1 2))).
Proof.
  unfold calculateLinearVelocity.
  destruct (apply_deadband _ _ _ (quaternion_matrix q 0 2)).
  destruct (apply_deadband _ _ _ (quaternion_matrix q 1 2)).
  reflexivity.
Qed.

Lemma calculateAngularVelocity_velocity (st : TorsoControl) (l r : vec3) :
  calculateAngularVelocity st l r =
  (deadband_scale (deadband_angle (params st)) (max_rotation (params st))
                  (velocity_angular_max (params st))
                  (atan2 (vy l - vy r) (vx l - vx r) - PI / 2), st).
Proof.
  unfold calculateAngularVelocity, deadband_scale.
  destruct (apply_deadband _ _ _ _). reflexivity.
Qed.

Lemma TorsoControl_init_params (p : Params) : params (TorsoControl_init p) = p.
Proof.
  unfold TorsoControl_init.
  destruct (Rle_dec (max_rotation p) (deadband_angle p)),
           (Rle_dec (y_max_length p) (deadband_y p)),
           (Rle_dec (x_max_length p) (deadband_x p)); reflexivity.
Qed.

Lemma EPS_lt_1 : EPS < 1.
Proof.
  unfold EPS. assert (Ht : 8 <= 2 ^ 52) by (simpl; lra).
  apply (Rmult_lt_reg_r (2 ^ 52)); [lra |].
  rewrite Rmult_assoc, Rinv_l by lra. lra.
Qed.

(** The shoulder angle of the spec's scenario: [atan2(1, 1) - pi/2 = -pi/4]. *)
Lemma scenario_shoulder_theta :
  atan2 (vy (Vec3 1 1 0) - vy (Vec3 0 0 0)) (vx (Vec3 1 1 0) - vx (Vec3 0 0 0)) - PI / 2
  = - (PI / 4).
Proof.
  simpl. unfold atan2.
  destruct (Rlt_dec 0 (1 - 0)) as [_ | H]; [| lra].
  replace ((1 - 0) / (1 - 0)) with 1 by field.
  rewrite atan_1. field.
Qed.

Lemma tilt_01_vector :
  quaternion_matrix tilt_01 0 2 = 0.1 /\ quaternion_matrix tilt_01 1 2 = 0.
Proof.
  pose proof (sqrt_sqrt 99 ltac:(lra)) as H99.
  pose proof EPS_lt_1 as He.
  unfold quaternion_matrix, tilt_01, qdot; simpl.
  set (t := 10 - sqrt 99).
  assert (Hn : 1 <= 0 * 0 + t * t + 0 * 0 + 1 * 1) by nra.
  destruct (Rlt_dec (0 * 0 + t * t + 0 * 0 + 1 * 1) EPS) as [H | _]; [lra |].
  split.
  - assert (Hq : 2 * t = 0.1 * (t * t + 1)) by (unfold t; nra).
    set (n := 0 * 0 + t * t + 0 * 0 + 1 * 1) in *.
    replace (2 / n * (0 * 0) + 2 / n * (t * 1)) with (2 * t / n) by (field; lra).
    rewrite Hq. unfold n. field. nra.
  - field. lra.
Qed.

Lemma x_max_length_value : cos (PI / 2 - PI / 8) = sin (PI / 8).
Proof. apply cos_shift. Qed.

Lemma saturation_bounds_pos :
  0 < cos (PI / 2 - PI / 8) /\ 0 < PI / 4.
Proof.
  pose proof PI_RGT_0. split; [apply cos_gt_0 |]; lra.
Qed.

Lemma sin_PI8_gt : 0.2 < sin (PI / 8).
Proof.
  pose proof PI_RGT_0 as Hpi.
  assert (Hs : 0 < sin (PI / 8)) by (apply sin_gt_0; lra).
  pose proof (cos_2a_sin (PI / 8)) as H2.
  replace (2 * (PI / 8)) with (PI / 4) in H2 by field.
  rewrite cos_PI4 in H2.
  pose proof (sqrt_sqrt 2 ltac:(lra)) as Hr.
  assert (Hr0 : 0 < sqrt 2) by (apply sqrt_lt_R0; lra).
  assert (Hr1 : 1.1 < sqrt 2) by nra.
  assert (Hi : 1 / sqrt 2 < 0.92).
  { apply (Rmult_lt_reg_r (sqrt 2)); [lra |].
    replace (1 / sqrt 2 * sqrt 2) with 1 by (field; lra). nra. }
  nra.
Qed.

(** With the default parameters every deadband lies below its saturation
    bound, so [__init__] does not signal shutdown. *)
Lemma default_node_value :
  default_node = TorsoControl_ default_params 0 0 (Quat 0 0 0 1) Twist_default [] false.
Proof.
  pose proof sin_PI8_gt. pose proof PI_RGT_0.
  unfold default_node, TorsoControl_init, default_params, make_params; simpl.
  rewrite cos_shift.
  destruct (Rle_dec (sin (PI / 8)) 0.2); [lra |].
  destruct (Rle_dec (PI / 4) (PI / 8)); [lra |].
  reflexivity.
Qed.

(** ** Claims on the velocity mappings *)

(** C4: an input whose magnitude does not exceed the axis's deadband
    ([deadband_x], [deadband_y] or [deadband_angle]) gives velocity exactly 0;
    in particular the tilt vector [(0.1, 0.0)] with [deadband_x = 0.2] gives
    [velocity_x = 0]. *)
Theorem deadband_gives_zero_velocity (st : TorsoControl) (q : quat) (l r : vec3) :
  (Rabs (quaternion_matrix q 0 2) <= deadband_x (params st) ->
   fst (fst (calculateLinearVelocity st q)) = 0) /\
  (Rabs (quaternion_matrix q 1 2) <= deadband_y (params st) ->
   snd (fst (calculateLinearVelocity st q)) = 0) /\
  (Rabs (atan2 (vy l - vy r) (vx l - vx r) - PI / 2) <= deadband_angle (params st) ->
   fst (calculateAngularVelocity st l r) = 0) /\
  (deadband_x (params st) = 0.2 ->
   quaternion_matrix q 0 2 = 0.1 -> quaternion_matrix q 1 2 = 0 ->
   fst (fst (calculateLinearVelocity st q)) = 0).
Proof.
  rewrite calculateLinearVelocity_velocities, calculateAngularVelocity_velocity; simpl.
  split; [| split; [| split]]; intros.
  - apply deadband_scale_in_band; assumption.
  - apply deadband_scale_in_band; assumption.
  - apply deadband_scale_in_band; assumption.
  - apply deadband_scale_in_band.
    match goal with H : quaternion_matrix q 0 2 = 0.1 |- _ => rewrite H end.
    match goal with H : deadband_x _ = 0.2 |- _ => rewrite H end.
    rewrite Rabs_pos_eq; lra.
Qed.

Lemma deadband_gives_zero_velocity_witness :
  deadband_x (params default_node) = 0.2 /\
  quaternion_matrix tilt_01 0 2 = 0.1 /\ quaternion_matrix tilt_01 1 2 = 0 /\
  fst (fst (calculateLinearVelocity default_node tilt_01)) = 0.
Proof.
  destruct tilt_01_vector as [H1 H2].
  assert (Hd : deadband_x (params default_node) = 0.2)
    by (unfold default_node; rewrite TorsoControl_init_params; reflexivity).
  split; [exact Hd | split; [exact H1 | split; [exact H2 |]]].
  exact (proj2 (proj2 (proj2
           (deadband_gives_zero_velocity default_node tilt_01 (Vec3 0 1 0) (Vec3 0 0 0))))
           Hd H1 H2).
Defined.

(** C8: with shoulders [(1,1,0)] and [(0,0,0)], [deadband_angle = pi/8],
    [max_rotation = pi/4] and [velocity_angular_max = pi/4], the shoulder
    angle is [atan2(1,1) - pi/2 = -pi/4], which saturates, and the angular
    velocity is exactly [-pi/4]. *)
Theorem angular_velocity_scenario (st : TorsoControl) :
  deadband_angle (params st) = PI / 8 ->
  max_rotation (params st) = PI / 4 ->
  velocity_angular_max (params st) = PI / 4 ->
  atan2 (vy (Vec3 1 1 0) - vy (Vec3 0 0 0)) (vx (Vec3 1 1 0) - vx (Vec3 0 0 0)) - PI / 2
    = - (PI / 4) /\
  fst (calculateAngularVelocity st (Vec3 1 1 0) (Vec3 0 0 0)) = - (PI / 4).
Proof.
  intros Hdb Hmax Hvm. pose proof PI_RGT_0.
  split; [exact scenario_shoulder_theta |].
  rewrite calculateAngularVelocity_velocity, scenario_shoulder_theta; simpl.
  rewrite Hdb, Hmax, Hvm.
  rewrite deadband_scale_saturated.
  - destruct (Rlt_dec (- (PI / 4)) 0); [reflexivity | lra].
  - lra.
  - rewrite Rabs_Ropp, Rabs_pos_eq; lra.
Qed.

Lemma angular_velocity_scenario_witness :
  deadband_angle (params default_node) = PI / 8 /\
  max_rotation (params default_node) = PI / 4 /\
  velocity_angular_max (params default_node) = PI / 4 /\
  fst (calculateAngularVelocity default_node (Vec3 1 1 0) (Vec3 0 0 0)) = - (PI / 4).
Proof.
  assert (Hp : params default_node = default_params)
    by (unfold default_node; apply TorsoControl_init_params).
  assert (H1 : deadband_angle (params default_node) = PI / 8) by (rewrite Hp; reflexivity).
  assert (H2 : max_rotation (params default_node) = PI / 4) by (rewrite Hp; reflexivity).
  assert (H3 : velocity_angular_max (params default_node) = PI / 4)
    by (rewrite Hp; reflexivity).
  split; [exact H1 | split; [exact H2 | split; [exact H3 |]]].
  exact (proj2 (angular_velocity_scenario default_node H1 H2 H3)).
Defined.

(** C10: the angular velocity depends only on the x and y differences of the
    shoulder positions: translating both by the same vector, or changing
    their z components, leaves it unchanged. *)
Theorem angular_velocity_planar_difference (st : TorsoControl) (l r t : vec3) (lz rz : R) :
  calculateAngularVelocity st
    (Vec3 (vx l + vx t) (vy l + vy t) (vz l + vz t))
    (Vec3 (vx r + vx t) (vy r + vy t) (vz r + vz t))
  = calculateAngularVelocity st l r /\
  calculateAngularVelocity st (Vec3 (vx l) (vy l) lz) (Vec3 (vx r) (vy r) rz)
  = calculateAngularVelocity st l r.
Proof.
  rewrite !calculateAngularVelocity_velocity; simpl. split; [| reflexivity].
  replace (vy l + vy t - (vy r + vy t)) with (vy l - vy r) by ring.
  replace (vx l + vx t - (vx r + vx t)) with (vx l - vx r) by ring.
  reflexivity.
Qed.

(** C9: with the saturation bounds [__init__] sets, the deadband block is
    odd on each axis: [scale(-raw) = -scale(raw)]. Reals have a single zero,
    so the point [raw = 0] is covered when the deadband is non-negative (for a
    negative deadband [copysign] tells [0.0] from [-0.0] in the source). *)
Theorem deadband_scale_odd_on_axes (ct dbx dby dba : R) (ff jf : string)
    (vxm vym vam raw : R) :
  let p := make_params ct dbx dby dba ff jf vxm vym vam in
  ((raw <> 0 \/ 0 <= deadband_x p) ->
   deadband_scale (deadband_x p) (x_max_length p) (velocity_x_max p) (- raw)
   = - deadband_scale (deadband_x p) (x_max_length p) (velocity_x_max p) raw) /\
  ((raw <> 0 \/ 0 <= deadband_y p) ->
   deadband_scale (deadband_y p) (y_max_length p) (velocity_y_max p) (- raw)
   = - deadband_scale (deadband_y p) (y_max_length p) (velocity_y_max p) raw) /\
  ((raw <> 0 \/ 0 <= deadband_angle p) ->
   deadband_scale (deadband_angle p) (max_rotation p) (velocity_angular_max p) (- raw)
   = - deadband_scale (deadband_angle p) (max_rotation p) (velocity_angular_max p) raw).
Proof.
  destruct saturation_bounds_pos as [Hs Hr]. simpl.
  split; [| split]; intros H; apply deadband_scale_odd; assumption.
Qed.

Lemma deadband_scale_odd_on_axes_witness :
  (1 <> 0 \/ 0 <= deadband_x default_params) /\
  deadband_scale (deadband_x default_params) (x_max_length default_params)
                 (velocity_x_max default_params) (- 1)
  = - deadband_scale (deadband_x default_params) (x_max_length default_params)
                     (velocity_x_max default_params) 1.
Proof.
  assert (H : 1 <> 0 \/ 0 <= deadband_x default_params) by (left; lra).
  split; [exact H |].
  exact (proj1 (deadband_scale_odd_on_axes 3 0.2 0.2 (PI / 8) "camera_link" "joystick"
                  0.2 0.2 (PI / 4) 1) H).
Defined.

(** C5 (as the code does it): for [0 <= deadband < saturation] and
    [|raw| >= saturation] the block returns [max_output] with the sign of
    [raw]: [-max_output] for negative [raw], [max_output] otherwise; its
    absolute value is [|max_output|]. *)
Theorem deadband_scale_saturation_sign (db s vm raw : R) :
  0 <= db < s -> s <= Rabs raw ->
  deadband_scale db s vm raw = (if Rlt_dec raw 0 then - vm else vm) /\
  Rabs (deadband_scale db s vm raw) = Rabs vm.
Proof.
  intros Hdb Hraw. rewrite (deadband_scale_saturated db s vm raw Hdb Hraw).
  split; [reflexivity |].
  destruct (Rlt_dec raw 0); [apply Rabs_Ropp | reflexivity].
Qed.

Lemma deadband_scale_saturation_sign_witness :
  (0 <= PI / 8 < PI / 4) /\ PI / 4 <= Rabs (- (PI / 4)) /\
  deadband_scale (PI / 8) (PI / 4) (PI / 4) (- (PI / 4)) = - (PI / 4).
Proof.
  pose proof PI_RGT_0.
  assert (H1 : 0 <= PI / 8 < PI / 4) by lra.
  assert (H2 : PI / 4 <= Rabs (- (PI / 4))) by (rewrite Rabs_Ropp, Rabs_pos_eq; lra).
  split; [exact H1 | split; [exact H2 |]].
  rewrite (proj1 (deadband_scale_saturation_sign (PI / 8) (PI / 4) (PI / 4) (- (PI / 4)) H1 H2)).
  destruct (Rlt_dec (- (PI / 4)) 0); [reflexivity | lra].
Defined.

(** C5 fails for a negative configured maximum: with
    [velocity_angular_max = -pi/4], [deadband_angle = pi/8 < max_rotation]
    and a saturating shoulder angle of [-pi/4], the angular velocity is
    [pi/4], whose absolute value is not [velocity_angular_max] and whose sign
    is not that of the angle. *)
Lemma saturation_negative_max_counterexample :
  let p := negative_max_params in
  let raw := atan2 (vy (Vec3 1 1 0) - vy (Vec3 0 0 0))
                   (vx (Vec3 1 1 0) - vx (Vec3 0 0 0)) - PI / 2 in
  let w := fst (calculateAngularVelocity (TorsoControl_init p) (Vec3 1 1 0) (Vec3 0 0 0)) in
  0 <= deadband_angle p < max_rotation p /\ max_rotation p <= Rabs raw /\
  raw < 0 /\ w = PI / 4 /\ Rabs w <> velocity_angular_max p.
Proof.
  pose proof PI_RGT_0. cbv zeta.
  rewrite calculateAngularVelocity_velocity, TorsoControl_init_params, scenario_shoulder_theta.
  unfold negative_max_params, make_params; simpl.
  rewrite deadband_scale_saturated by (try rewrite Rabs_Ropp, Rabs_pos_eq; lra).
  destruct (Rlt_dec (- (PI / 4)) 0); [| lra].
  rewrite Rabs_Ropp, Rabs_pos_eq by lra.
  repeat split; try lra.
  rewrite Ropp_involutive, Rabs_pos_eq; lra.
Qed.

(** C6 (as the code does it): when each deadband is below its saturation
    bound, every velocity is bounded in absolute value by the absolute value
    of its configured maximum, for every orientation and shoulder pair. *)
Theorem velocity_bounded_by_max_magnitude (st : TorsoControl) (q : quat) (l r : vec3) :
  deadband_x (params st) < x_max_length (params st) ->
  deadband_y (params st) < y_max_length (params st) ->
  deadband_angle (params st) < max_rotation (params st) ->
  Rabs (fst (fst (calculateLinearVelocity st q))) <= Rabs (velocity_x_max (params st)) /\
  Rabs (snd (fst (calculateLinearVelocity st q))) <= Rabs (velocity_y_max (params st)) /\
  Rabs (fst (calculateAngularVelocity st l r)) <= Rabs (velocity_angular_max (params st)).
Proof.
  intros Hx Hy Ha.
  rewrite calculateLinearVelocity_velocities, calculateAngularVelocity_velocity; simpl.
  split; [| split]; apply deadband_scale_bound; assumption.
Qed.

Lemma velocity_bounded_by_max_magnitude_witness :
  deadband_x (params default_node) < x_max_length (params default_node) /\
  deadband_y (params default_node) < y_max_length (params default_node) /\
  deadband_angle (params default_node) < max_rotation (params default_node) /\
  Rabs (fst (fst (calculateLinearVelocity default_node tilt_01)))
    <= Rabs (velocity_x_max (params default_node)).
Proof.
  pose proof sin_PI8_gt. pose proof PI_RGT_0.
  assert (Hp : params default_node = default_params)
    by (unfold default_node; apply TorsoControl_init_params).
  assert (Hx : deadband_x (params default_node) < x_max_length (params default_node))
    by (rewrite Hp; simpl; rewrite cos_shift; lra).
  assert (Hy : deadband_y (params default_node) < y_max_length (params default_node))
    by (rewrite Hp; simpl; rewrite cos_shift; lra).
  assert (Ha : deadband_angle (params default_node) < max_rotation (params default_node))
    by (rewrite Hp; simpl; lra).
  split; [exact Hx | split; [exact Hy | split; [exact Ha |]]].
  exact (proj1 (velocity_bounded_by_max_magnitude default_node tilt_01
                  (Vec3 1 1 0) (Vec3 0 0 0) Hx Hy Ha)).
Defined.

(** C6 fails for a negative configured maximum: with zero linear deadbands,
    [deadband_angle = pi/8 < max_rotation] and [velocity_x_max = -0.2], the
    identity orientation gives [velocity_x = 0], and [|0| <= -0.2] is false. *)
Lemma velocity_bound_negative_max_counterexample :
  let p := negative_max_params in
  let st := TorsoControl_init p in
  deadband_x p < x_max_length p /\ deadband_y p < y_max_length p /\
  deadband_angle p < max_rotation p /\
  fst (fst (calculateLinearVelocity st quat_identity)) = 0 /\
  ~ (Rabs (fst (fst (calculateLinearVelocity st quat_identity))) <= velocity_x_max p).
Proof.
  destruct saturation_bounds_pos as [Hs Hr]. pose proof PI_RGT_0.
  cbv zeta. rewrite calculateLinearVelocity_velocities, TorsoControl_init_params.
  unfold negative_max_params, make_params; simpl.
  assert (Hm : quaternion_matrix quat_identity 0 2 = 0).
  { unfold quaternion_matrix, quat_identity, qdot; simpl.
    destruct (Rlt_dec _ EPS); [reflexivity | ring]. }
  rewrite Hm, deadband_scale_in_band by (rewrite Rabs_R0; lra).
  rewrite Rabs_R0. repeat split; lra.
Qed.

(** ** Claim on the frame of the velocity functions *)

(** C3 fails: [calculateLinearVelocity] writes the members [joystick_x] and
    [joystick_y]; on the default node the tilt vector [(0.1, 0.0)] changes
    [joystick_x] from 0 to 0.1. *)
Lemma linear_velocity_writes_joystick_x :
  joystick_x default_node = 0 /\
  joystick_x (snd (calculateLinearVelocity default_node tilt_01)) = 0.1.
Proof.
  destruct tilt_01_vector as [H1 _].
  split; [rewrite default_node_value; reflexivity |].
  rewrite calculateLinearVelocity_state; simpl.
  rewrite H1. unfold apply_deadband.
  assert (Hd : deadband_x (params default_node) = 0.2)
    by (rewrite default_node_value; reflexivity).
  rewrite Hd, Rabs_pos_eq by lra.
  destruct (Rlt_dec 0.2 0.1); [lra | reflexivity].
Qed.

(** C3 (as the code does it): [calculateAngularVelocity] leaves the object
    unchanged; [calculateLinearVelocity] changes only [joystick_x] and
    [joystick_y]; the velocities of both depend only on the input and the
    parameters, so two objects with the same parameters give the same
    velocities for the same input. *)
Theorem velocity_functions_frame (st st' : TorsoControl) (q : quat) (l r : vec3) :
  snd (calculateAngularVelocity st l r) = st /\
  (exists jx jy, snd (calculateLinearVelocity st q) = set_joystick st jx jy) /\
  (params st = params st' ->
   fst (calculateLinearVelocity st q) = fst (calculateLinearVelocity st' q) /\
   fst (calculateAngularVelocity st l r) = fst (calculateAngularVelocity st' l r)).
Proof.
  split; [rewrite calculateAngularVelocity_velocity; reflexivity |].
  split.
  - rewrite calculateLinearVelocity_state. eexists. eexists. reflexivity.
  - intros Hp.
    rewrite !calculateLinearVelocity_velocities, !calculateAngularVelocity_velocity, Hp.
    split; reflexivity.
Qed.

Lemma velocity_functions_frame_witness :
  params default_node = params (set_joystick default_node 5 5) /\
  fst (calculateLinearVelocity default_node tilt_01)
  = fst (calculateLinearVelocity (set_joystick default_node 5 5) tilt_01).
Proof.
  assert (Hp : params default_node = params (set_joystick default_node 5 5))
    by reflexivity.
  split; [exact Hp |].
  exact (proj1 (proj2 (proj2 (velocity_functions_frame default_node
                                (set_joystick default_node 5 5) tilt_01
                                (Vec3 0 0 0) (Vec3 0 0 0))) Hp)).
Defined.

(** ** Claim on the control loop *)

(** C2: in a pass of the [spin] loop where [getTransforms] fails, the message
    published has [linear.x], [linear.y] and [angular.z] equal to 0, the node
    does not signal shutdown, and the loop goes on with the next tick. *)
Theorem pose_failure_publishes_zero (st : TorsoControl) (t : Tick) (rest : list Tick) :
  is_shutdown st t = false ->
  getTransforms st (tick_base t) (tick_l_shoulder t) (tick_r_shoulder t) = None ->
  x (linear (cmd_vel_msg (spin_body st t))) = 0 /\
  y (linear (cmd_vel_msg (spin_body st t))) = 0 /\
  z (angular (cmd_vel_msg (spin_body st t))) = 0 /\
  published (spin_body st t) = published st ++ [cmd_vel_msg (spin_body st t)] /\
  shutdown_signalled (spin_body st t) = shutdown_signalled st /\
  spin_loop st (t :: rest) = spin_loop (spin_body st t) rest.
Proof.
  intros Hs Hg.
  assert (Hb : spin_body st t =
               publish (set_cmd_vel_msg st
                 (set_angular_z (set_linear_y (set_linear_x (cmd_vel_msg st) 0) 0) 0)))
    by (unfold spin_body; rewrite Hg; reflexivity).
  simpl spin_loop. rewrite Hs, Hb.
  repeat split; reflexivity.
Qed.

Lemma pose_failure_publishes_zero_witness :
  is_shutdown default_node (Tick_ false None None None) = false /\
  getTransforms default_node None None None = None /\
  x (linear (cmd_vel_msg (spin_body default_node (Tick_ false None None None)))) = 0.
Proof.
  assert (Hs : is_shutdown default_node (Tick_ false None None None) = false)
    by (rewrite default_node_value; reflexivity).
  assert (Hg : getTransforms default_node None None None = None) by reflexivity.
  split; [exact Hs | split; [exact Hg |]].
  exact (proj1 (pose_failure_publishes_zero default_node (Tick_ false None None None) [] Hs Hg)).
Defined.

(** ** Calibration *)

Lemma skipn_succ {A : Type} (n : nat) (l : list A) : skipn (S n) l = tl (skipn n l).
Proof.
  revert l. induction n as [| n IH]; intros [| a l]; try reflexivity.
  simpl. rewrite <- IH. reflexivity.
Qed.

(** The spec's rule, one sample further. *)
Lemma spec_avg_step (samples : list quat) (k : nat) :
  (1 <= k)%nat ->
  spec_avg samples (S k) =
  quaternion_slerp (spec_avg samples k) (nth k samples (Quat 0 0 0 1)) (1 / INR (S k)).
Proof. intros Hk. destruct k as [| k]; [lia | reflexivity]. Qed.

(** Lookups that all succeed inside the window advance the loop by the
    spec's rule, one step per sample. *)
Lemma calibration_loop_samples (T s : R) (ts : list (R * (vec3 * quat)))
    (rest : list (R * lookup)) (samples : list quat) (count : nat) :
  (1 <= count)%nat ->
  Forall (fun tp => fst tp - s < T) ts ->
  skipn count samples = map sample_of ts ->
  calibration_loop T s count (spec_avg samples count) (map fetched ts ++ rest)
  = calibration_loop T s (count + List.length ts) (spec_avg samples (count + List.length ts)) rest.
Proof.
  revert count. induction ts as [| [now [pos nq]] ts IH]; intros count Hc Hin Hsk.
  - simpl. rewrite Nat.add_0_r. reflexivity.
  - inversion Hin as [| ? ? Hnow Hts]; subst. simpl in Hnow.
    simpl. destruct (Rlt_dec (now - s) T) as [_ | Hn]; [| contradiction].
    assert (Hnth : nth count samples (Quat 0 0 0 1) = nq).
    { rewrite <- (Nat.add_0_r count), <- nth_skipn, Hsk. reflexivity. }
    rewrite <- Hnth, <- spec_avg_step by exact Hc.
    replace (count + S (List.length ts))%nat with (S count + List.length ts)%nat by lia.
    apply IH; [lia | exact Hts |].
    rewrite skipn_succ, Hsk. reflexivity.
Qed.

Lemma calibration_prefix (st : TorsoControl) (start : R) (q1 : quat)
    (ts : list (R * (vec3 * quat))) (rest : list (R * lookup)) :
  Forall (fun tp => fst tp - start < calibration_time (params st)) ts ->
  calibration_loop (calibration_time (params st)) start 1 q1 (map fetched ts ++ rest)
  = calibration_loop (calibration_time (params st)) start (S (List.length ts))
      (spec_avg (q1 :: map sample_of ts) (S (List.length ts))) rest.
Proof.
  intros Hin.
  exact (calibration_loop_samples _ _ ts rest (q1 :: map sample_of ts) 1
           (le_n 1) Hin eq_refl).
Qed.

(** C7: when every lookup inside the calibration window succeeds, the samples
    being [s_1 = q1] and those of [ts], and the window then closes,
    [calibrateJoystickPose] succeeds and stores [avg_N] of the spec's rule
    ([avg_1 = s_1], [avg_k = slerp(avg_(k-1), s_k, 1/k)]), [N] being the
    number of samples. *)
Theorem calibration_incremental_average (st : TorsoControl) (start : R) (pos : vec3)
    (q1 : quat) (ts : list (R * (vec3 * quat))) (now_end : R) (l_end : lookup)
    (rest : list (R * lookup)) :
  Forall (fun tp => fst tp - start < calibration_time (params st)) ts ->
  calibration_time (params st) <= now_end - start ->
  calibrateJoystickPose st start (Some (pos, q1)) (map fetched ts ++ (now_end, l_end) :: rest)
  = (true, set_joystick_quaternion st
             (spec_avg (q1 :: map sample_of ts) (S (List.length ts)))).
Proof.
  intros Hin Hend. unfold calibrateJoystickPose.
  rewrite (calibration_prefix st start q1 ts _ Hin). simpl.
  destruct (Rlt_dec (now_end - start) (calibration_time (params st))); [lra |].
  reflexivity.
Qed.

Lemma calibration_incremental_average_witness :
  let ts := [(1, (Vec3 0 0 0, Quat 0 1 0 0)); (2, (Vec3 0 0 0, Quat 1 0 0 0))] in
  Forall (fun tp => fst tp - 0 < calibration_time (params default_node)) ts /\
  calibration_time (params default_node) <= 5 - 0 /\
  calibrateJoystickPose default_node 0 (Some (Vec3 0 0 0, Quat 0 0 1 0))
    (map fetched ts ++ [(5, None)])
  = (true, set_joystick_quaternion default_node
             (spec_avg [Quat 0 0 1 0; Quat 0 1 0 0; Quat 1 0 0 0] 3)).
Proof.
  intros ts.
  assert (H1 : Forall (fun tp => fst tp - 0 < calibration_time (params default_node)) ts)
    by (unfold ts; rewrite default_node_value; simpl;
        repeat constructor; simpl; lra).
  assert (H2 : calibration_time (params default_node) <= 5 - 0)
    by (rewrite default_node_value; simpl; lra).
  split; [exact H1 | split; [exact H2 |]].
  exact (calibration_incremental_average default_node 0 (Vec3 0 0 0) (Quat 0 0 1 0) ts
           5 None [] H1 H2).
Defined.

(** C1 fails: when a lookup fails after the first one, [calibrateJoystickPose]
    returns [False] but [joystick_quaternion] keeps the samples gathered so
    far: here it becomes [(0, 0, 1, 0)] instead of staying [(0, 0, 0, 1)]. *)
Lemma calibration_failure_keeps_partial_average :
  let r := calibrateJoystickPose default_node 0 (Some (Vec3 0 0 0, Quat 0 0 1 0))
             [(1, None)] in
  fst r = false /\ joystick_quaternion (snd r) = Quat 0 0 1 0 /\
  joystick_quaternion (snd r) <> joystick_quaternion default_node.
Proof.
  cbv zeta. rewrite default_node_value. simpl.
  destruct (Rlt_dec (1 - 0) 3); [| lra]. simpl.
  split; [reflexivity | split; [reflexivity |]].
  intros H. injection H. lra.
Qed.

(** C1 (as the code does it): a failed lookup makes [calibrateJoystickPose]
    return [False]. If the first lookup fails the object is unchanged;
    otherwise the only member changed is [joystick_quaternion], which holds
    the spec's running average [avg_k] of the [k] samples fetched before the
    failure. *)
Theorem calibration_failure_result (st : TorsoControl) (start : R)
    (ticks : list (R * lookup)) (pos : vec3) (q1 : quat)
    (ts : list (R * (vec3 * quat))) (now : R) (rest : list (R * lookup)) :
  calibrateJoystickPose st start None ticks = (false, st) /\
  (Forall (fun tp => fst tp - start < calibration_time (params st)) ts ->
   now - start < calibration_time (params st) ->
   calibrateJoystickPose st start (Some (pos, q1)) (map fetched ts ++ (now, None) :: rest)
   = (false, set_joystick_quaternion st
               (spec_avg (q1 :: map sample_of ts) (S (List.length ts))))).
Proof.
  split; [reflexivity |].
  intros Hin Hnow. unfold calibrateJoystickPose.
  rewrite (calibration_prefix st start q1 ts _ Hin). simpl.
  destruct (Rlt_dec (now - start) (calibration_time (params st))); [| lra].
  reflexivity.
Qed.

Lemma calibration_failure_result_witness :
  Forall (fun tp => fst tp - 0 < calibration_time (params default_node))
         ([] : list (R * (vec3 * quat))) /\
  1 - 0 < calibration_time (params default_node) /\
  calibrateJoystickPose default_node 0 (Some (Vec3 0 0 0, Quat 0 0 1 0))
    (map fetched [] ++ [(1, None)])
  = (false, set_joystick_quaternion default_node (spec_avg [Quat 0 0 1 0] 1)).
Proof.
  assert (H1 : Forall (fun tp => fst tp - 0 < calibration_time (params default_node))
                      ([] : list (R * (vec3 * quat)))) by constructor.
  assert (H2 : 1 - 0 < calibration_time (params default_node))
    by (rewrite default_node_value; simpl; lra).
  split; [exact H1 | split; [exact H2 |]].
  exact (proj2 (calibration_failure_result default_node 0 [] (Vec3 0 0 0) (Quat 0 0 1 0)
                  [] 1 []) H1 H2).
Defined.

(** * Further properties of the node *)

(** ** One pass of the loop *)

Lemma spin_body_frame (st : TorsoControl) (t : Tick) :
  params (spin_body st t) = params st /\
  joystick_quaternion (spin_body st t) = joystick_quaternion st /\
  shutdown_signalled (spin_body st t) = shutdown_signalled st /\
  published (spin_body st t) = published st ++ [cmd_vel_msg (spin_body st t)].
Proof.
  unfold spin_body.
  destruct (getTransforms st _ _ _) as [[[b l] r] |]; [| repeat split; reflexivity].
  pose proof (calculateLinearVelocity_state st b) as Hs.
  destruct (calculateLinearVelocity st b) as [[v1 v2] st1]. simpl in Hs. subst st1.
  rewrite calculateAngularVelocity_velocity. repeat split; reflexivity.
Qed.

Lemma spin_body_msg_within (st : TorsoControl) (t : Tick) :
  deadbands_valid (params st) ->
  msg_within (params st) (cmd_vel_msg (spin_body st t)).
Proof.
  intros [Hx [Hy Ha]]. unfold spin_body, msg_within.
  destruct (getTransforms st _ _ _) as [[[b l] r] |].
  - pose proof (calculateLinearVelocity_state st b) as Hs.
    pose proof (calculateLinearVelocity_velocities st b) as Hv.
    destruct (calculateLinearVelocity st b) as [[v1 v2] st1].
    simpl in Hs, Hv. subst st1. injection Hv as -> ->.
    rewrite calculateAngularVelocity_velocity. simpl.
    split; [| split]; apply deadband_scale_bound; assumption.
  - simpl. rewrite Rabs_R0. split; [| split]; apply Rabs_pos.
Qed.

Lemma spin_loop_stopped (st : TorsoControl) (ticks : list Tick) :
  shutdown_signalled st = true -> spin_loop st ticks = st.
Proof.
  intros H. destruct ticks as [| t rest]; [reflexivity |].
  simpl. unfold is_shutdown. rewrite H. reflexivity.
Qed.

Lemma calibrateJoystickPose_frame (st : TorsoControl) (start : R) (first : lookup)
    (ticks : list (R * lookup)) :
  snd (calibrateJoystickPose st start first ticks)
  = set_joystick_quaternion st
      (joystick_quaternion (snd (calibrateJoystickPose st start first ticks))).
Proof.
  unfold calibrateJoystickPose. destruct first as [[pos q1] |].
  - destruct (calibration_loop _ _ _ _ _) as [ok jq]. reflexivity.
  - destruct st. reflexivity.
Qed.

(** ** The control loop over many passes *)

(** The loop publishes exactly one message per pass, appended after what was
    published before, and makes one pass per tick up to the first tick at
    which shutdown is requested. *)
Theorem spin_loop_one_message_per_pass (st : TorsoControl) (ticks : list Tick) :
  shutdown_signalled st = false ->
  exists msgs, published (spin_loop st ticks) = published st ++ msgs /\
               List.length msgs = ticks_before_shutdown ticks.
Proof.
  revert st. induction ticks as [| t rest IH]; intros st Hs.
  - exists []. rewrite app_nil_r. split; reflexivity.
  - simpl. unfold is_shutdown. rewrite Hs. simpl.
    destruct (tick_shutdown t).
    + exists []. rewrite app_nil_r. split; reflexivity.
    + destruct (spin_body_frame st t) as [_ [_ [Hsh Hpub]]].
      destruct (IH (spin_body st t)) as [msgs [Hm Hl]]; [rewrite Hsh; exact Hs |].
      exists (cmd_vel_msg (spin_body st t) :: msgs).
      rewrite Hm, Hpub, <- app_assoc. split; [reflexivity | simpl; rewrite Hl; reflexivity].
Qed.

Lemma spin_loop_one_message_per_pass_witness :
  shutdown_signalled default_node = false /\
  exists msgs,
    published (spin_loop default_node [Tick_ false None None None; Tick_ true None None None])
    = published default_node ++ msgs /\
    List.length msgs = ticks_before_shutdown [Tick_ false None None None; Tick_ true None None None].
Proof.
  assert (H : shutdown_signalled default_node = false)
    by (rewrite default_node_value; reflexivity).
  split; [exact H |].
  exact (spin_loop_one_message_per_pass default_node _ H).
Defined.

(** The loop never changes the reference orientation, the parameters or the
    shutdown flag: the calibration result is read-only during control. *)
Theorem spin_loop_reference_read_only (st : TorsoControl) (ticks : list Tick) :
  joystick_quaternion (spin_loop st ticks) = joystick_quaternion st /\
  params (spin_loop st ticks) = params st /\
  shutdown_signalled (spin_loop st ticks) = shutdown_signalled st.
Proof.
  revert st. induction ticks as [| t rest IH]; intros st; [repeat split |].
  simpl. destruct (is_shutdown st t); [repeat split |].
  destruct (spin_body_frame st t) as [Hp [Hq [Hs _]]].
  destruct (IH (spin_body st t)) as [Hq' [Hp' Hs']].
  rewrite Hq', Hp', Hs', Hq, Hp, Hs. repeat split.
Qed.

(** With every deadband below its saturation bound, each message the loop
    publishes has its three velocities within the configured maxima in
    absolute value. *)
Theorem spin_loop_messages_within_max (st : TorsoControl) (ticks : list Tick) :
  deadbands_valid (params st) ->
  Forall (msg_within (params st)) (published st) ->
  Forall (msg_within (params st)) (published (spin_loop st ticks)).
Proof.
  revert st. induction ticks as [| t rest IH]; intros st Hv Hall; [exact Hall |].
  simpl. destruct (is_shutdown st t); [exact Hall |].
  destruct (spin_body_frame st t) as [Hp [_ [_ Hpub]]].
  rewrite <- Hp. apply IH; rewrite Hp; [exact Hv |].
  rewrite Hpub. apply Forall_app. split; [exact Hall |].
  constructor; [| constructor].
  rewrite <- Hp. rewrite Hp. apply spin_body_msg_within. exact Hv.
Qed.

Lemma spin_loop_messages_within_max_witness :
  deadbands_valid (params default_node) /\
  Forall (msg_within (params default_node)) (published default_node) /\
  Forall (msg_within (params default_node))
    (published (spin_loop default_node [Tick_ false None None None])).
Proof.
  pose proof sin_PI8_gt. pose proof PI_RGT_0.
  assert (Hv : deadbands_valid (params default_node)).
  { rewrite default_node_value. unfold deadbands_valid; simpl.
    rewrite cos_shift. repeat split; lra. }
  assert (Ha : Forall (msg_within (params default_node)) (published default_node))
    by (rewrite default_node_value; constructor).
  split; [exact Hv | split; [exact Ha |]].
  exact (spin_loop_messages_within_max default_node _ Hv Ha).
Defined.

(** ** Shutdown *)

(** The [on_shutdown] hook publishes exactly one more message, whose
    [linear.x], [linear.y] and [angular.z] are 0; it leaves the parameters and
    the reference orientation alone. *)
Theorem shutdown_publishes_zero (st : TorsoControl) :
  exists m, published (shutdown st) = published st ++ [m] /\
            x (linear m) = 0 /\ y (linear m) = 0 /\ z (angular m) = 0 /\
            params (shutdown st) = params st /\
            joystick_quaternion (shutdown st) = joystick_quaternion st.
Proof.
  eexists. repeat split; reflexivity.
Qed.

(** When the initial calibration of [spin] fails, the node publishes exactly
    one message, the zero command of the shutdown hook, and the control loop
    publishes nothing. This needs a node that has not already been shut
    down: [rospy.signal_shutdown] runs the hook only once. *)
Theorem spin_failed_calibration_publishes_only_zero (st : TorsoControl)
    (calibration_start : R) (first : lookup) (calibration_ticks : list (R * lookup))
    (ticks : list Tick) :
  shutdown_signalled st = false ->
  fst (calibrateJoystickPose st calibration_start first calibration_ticks) = false ->
  exists m, published (spin st calibration_start first calibration_ticks ticks)
            = published st ++ [m] /\
            x (linear m) = 0 /\ y (linear m) = 0 /\ z (angular m) = 0.
Proof.
  intros Hs Hf. unfold spin.
  pose proof (calibrateJoystickPose_frame st calibration_start first calibration_ticks) as Hc.
  destruct (calibrateJoystickPose st calibration_start first calibration_ticks) as [ok st1].
  simpl in Hf, Hc. subst ok.
  assert (Hs1 : shutdown_signalled st1 = false) by (rewrite Hc; exact Hs).
  rewrite Hs1.
  rewrite spin_loop_stopped by reflexivity.
  eexists. split.
  - simpl. rewrite Hc at 1. reflexivity.
  - repeat split; reflexivity.
Qed.

Lemma spin_failed_calibration_publishes_only_zero_witness :
  shutdown_signalled default_node = false /\
  fst (calibrateJoystickPose default_node 0 None []) = false /\
  exists m, published (spin default_node 0 None [] [Tick_ false None None None])
            = published default_node ++ [m] /\
            x (linear m) = 0 /\ y (linear m) = 0 /\ z (angular m) = 0.
Proof.
  assert (Hs : shutdown_signalled default_node = false)
    by (rewrite default_node_value; reflexivity).
  assert (H : fst (calibrateJoystickPose default_node 0 None []) = false) by reflexivity.
  split; [exact Hs | split; [exact H |]].
  exact (spin_failed_calibration_publishes_only_zero default_node 0 None [] _ Hs H).
Defined.

(** A node whose shutdown has already been signalled (by the deadband checks
    of [__init__]) publishes nothing in [spin], whatever the calibration
    gives: the hook is not run again and the control loop does not start. *)
Theorem spin_after_shutdown_publishes_nothing (st : TorsoControl)
    (calibration_start : R) (first : lookup) (calibration_ticks : list (R * lookup))
    (ticks : list Tick) :
  shutdown_signalled st = true ->
  published (spin st calibration_start first calibration_ticks ticks) = published st.
Proof.
  intros Hs. unfold spin.
  pose proof (calibrateJoystickPose_frame st calibration_start first calibration_ticks) as Hc.
  destruct (calibrateJoystickPose st calibration_start first calibration_ticks) as [ok st1].
  simpl in Hc.
  assert (Hs1 : shutdown_signalled st1 = true) by (rewrite Hc; exact Hs).
  assert (Hp : published st1 = published st) by (rewrite Hc; reflexivity).
  destruct ok; [| rewrite Hs1]; rewrite spin_loop_stopped by exact Hs1; exact Hp.
Qed.

Lemma spin_after_shutdown_publishes_nothing_witness :
  shutdown_signalled (signal_shutdown default_node) = true /\
  published (spin (signal_shutdown default_node) 0 None [] [Tick_ false None None None])
  = published (signal_shutdown default_node).
Proof.
  assert (Hs : shutdown_signalled (signal_shutdown default_node) = true) by reflexivity.
  split; [exact Hs |].
  exact (spin_after_shutdown_publishes_nothing (signal_shutdown default_node) 0 None [] _ Hs).
Defined.

(** ** Construction *)

(** [__init__] signals shutdown exactly when some deadband is not below its
    saturation bound; it starts with the identity reference orientation,
    zero scratch values and nothing published. *)
Theorem init_config_check (p : Params) :
  (shutdown_signalled (TorsoControl_init p) = true <->
   x_max_length p <= deadband_x p \/ y_max_length p <= deadband_y p \/
   max_rotation p <= deadband_angle p) /\
  joystick_quaternion (TorsoControl_init p) = Quat 0 0 0 1 /\
  joystick_x (TorsoControl_init p) = 0 /\ joystick_y (TorsoControl_init p) = 0 /\
  published (TorsoControl_init p) = [].
Proof.
  unfold TorsoControl_init.
  destruct (Rle_dec (x_max_length p) (deadband_x p)),
           (Rle_dec (y_max_length p) (deadband_y p)),
           (Rle_dec (max_rotation p) (deadband_angle p));
    simpl; (split; [split; [intros; try discriminate; tauto | intros; try reflexivity] |]);
    try (destruct H as [H | [H | H]]; lra);
    repeat split.
Qed.

(** ** Transform lookups *)

(** [getTransforms] fails exactly when one of its three lookups fails. *)
Theorem getTransforms_none_iff (st : TorsoControl) (base l r : lookup) :
  getTransforms st base l r = None <-> base = None \/ l = None \/ r = None.
Proof.
  destruct base as [[bp bq] |], l as [[lp lq] |], r as [[rp rq] |]; simpl;
    split; intros H; try discriminate; try tauto;
    destruct H as [H | [H | H]]; discriminate.
Qed.

(** With the torso exactly at the calibrated orientation, the orientation
    relative to the joystick frame is the identity, and the shoulders are
    returned as looked up. *)
Theorem getTransforms_at_reference (st : TorsoControl) (pos l r : vec3) (ql qr : quat) :
  qdot (joystick_quaternion st) (joystick_quaternion st) <> 0 ->
  getTransforms st (Some (pos, joystick_quaternion st)) (Some (l, ql)) (Some (r, qr))
  = Some (Quat 0 0 0 1, l, r).
Proof.
  intros Hn.
  assert (Hq : quaternion_multiply (quaternion_inverse (joystick_quaternion st))
                                   (joystick_quaternion st) = Quat 0 0 0 1).
  { destruct (joystick_quaternion st) as [a b c d].
    unfold quaternion_multiply, quaternion_inverse, qdot in *; simpl in *.
    apply f_equal4; field; exact Hn. }
  unfold getTransforms. rewrite Hq. reflexivity.
Qed.

Lemma getTransforms_at_reference_witness :
  qdot (joystick_quaternion default_node) (joystick_quaternion default_node) <> 0 /\
  getTransforms default_node (Some (Vec3 0 0 0, joystick_quaternion default_node))
    (Some (Vec3 1 0 0, Quat 0 0 0 1)) (Some (Vec3 0 0 0, Quat 0 0 0 1))
  = Some (Quat 0 0 0 1, Vec3 1 0 0, Vec3 0 0 0).
Proof.
  assert (H : qdot (joystick_quaternion default_node) (joystick_quaternion default_node) <> 0)
    by (rewrite default_node_value; unfold qdot; simpl; lra).
  split; [exact H |].
  exact (getTransforms_at_reference default_node _ _ _ _ _ H).
Defined.

(** ** The joystick mapping *)

(** The tilt vector read from the rotation matrix lies in [[-1, 1]] on both
    axes, for every quaternion (including those [quaternion_matrix] treats as
    zero). *)
Theorem tilt_vector_bounded (q : quat) :
  Rabs (quaternion_matrix q 0 2) <= 1 /\ Rabs (quaternion_matrix q 1 2) <= 1.
Proof.
  unfold quaternion_matrix. destruct q as [a b c d]. unfold qdot; simpl.
  set (n := a * a + b * b + c * c + d * d).
  destruct (Rlt_dec n EPS) as [_ | Hn].
  - simpl. rewrite Rabs_R0. split; lra.
  - assert (Hpos : 0 < n).
    { assert (0 < EPS) by (unfold EPS; apply Rmult_lt_0_compat; [lra |];
                           apply Rinv_0_lt_compat, pow_lt; lra).
      lra. }
    split.
    + replace (2 / n * (a * c) + 2 / n * (b * d)) with (1 * ((2 * (a * c + b * d)) / n))
        by (field; lra).
      replace 1 with (Rabs 1) at 2 by (apply Rabs_pos_eq; lra).
      apply rescale_bound; [exact Hpos |].
      apply Rabs_le. unfold n.
      pose proof (Rle_0_sqr (a - c)). pose proof (Rle_0_sqr (a + c)).
      pose proof (Rle_0_sqr (b - d)). pose proof (Rle_0_sqr (b + d)).
      pose proof (Rle_0_sqr (b - c)). pose proof (Rle_0_sqr (b + c)).
      pose proof (Rle_0_sqr (a - d)). pose proof (Rle_0_sqr (a + d)).
      unfold Rsqr in *. split; nra.
    + replace (2 / n * (b * c) - 2 / n * (a * d)) with (1 * ((2 * (b * c - a * d)) / n))
        by (field; lra).
      replace 1 with (Rabs 1) at 2 by (apply Rabs_pos_eq; lra).
      apply rescale_bound; [exact Hpos |].
      apply Rabs_le. unfold n.
      pose proof (Rle_0_sqr (a - c)). pose proof (Rle_0_sqr (a + c)).
      pose proof (Rle_0_sqr (b - d)). pose proof (Rle_0_sqr (b + d)).
      pose proof (Rle_0_sqr (b - c)). pose proof (Rle_0_sqr (b + c)).
      pose proof (Rle_0_sqr (a - d)). pose proof (Rle_0_sqr (a + d)).
      unfold Rsqr in *. split; nra.
Qed.

(** A pure rotation about the vertical axis ([x = y = 0]) tilts nothing:
    with non-negative linear deadbands both linear velocities are 0, so
    turning in place never drives the base forward or sideways. *)
Theorem yaw_only_gives_no_linear_velocity (st : TorsoControl) (q : quat) :
  qx q = 0 -> qy q = 0 ->
  0 <= deadband_x (params st) -> 0 <= deadband_y (params st) ->
  fst (calculateLinearVelocity st q) = (0, 0).
Proof.
  intros Hx Hy Hdx Hdy. rewrite calculateLinearVelocity_velocities.
  assert (H0 : quaternion_matrix q 0 2 = 0 /\ quaternion_matrix q 1 2 = 0).
  { unfold quaternion_matrix. destruct q as [a b c d]. simpl in *. subst a b.
    destruct (Rlt_dec _ EPS); simpl; split; ring. }
  destruct H0 as [H1 H2]. rewrite H1, H2.
  rewrite !deadband_scale_in_band by (rewrite Rabs_R0; assumption).
  reflexivity.
Qed.

Lemma yaw_only_gives_no_linear_velocity_witness :
  qx (Quat 0 0 (sin (PI / 8)) (cos (PI / 8))) = 0 /\
  qy (Quat 0 0 (sin (PI / 8)) (cos (PI / 8))) = 0 /\
  0 <= deadband_x (params default_node) /\ 0 <= deadband_y (params default_node) /\
  fst (calculateLinearVelocity default_node (Quat 0 0 (sin (PI / 8)) (cos (PI / 8))))
  = (0, 0).
Proof.
  assert (H1 : qx (Quat 0 0 (sin (PI / 8)) (cos (PI / 8))) = 0) by reflexivity.
  assert (H2 : qy (Quat 0 0 (sin (PI / 8)) (cos (PI / 8))) = 0) by reflexivity.
  assert (H3 : 0 <= deadband_x (params default_node))
    by (rewrite default_node_value; simpl; lra).
  assert (H4 : 0 <= deadband_y (params default_node))
    by (rewrite default_node_value; simpl; lra).
  split; [exact H1 | split; [exact H2 | split; [exact H3 | split; [exact H4 |]]]].
  exact (yaw_only_gives_no_linear_velocity default_node _ H1 H2 H3 H4).
Defined.

Lemma rescale_mono (a b vm d : R) :
  0 <= vm -> 0 < d -> a <= b -> vm * (a / d) <= vm * (b / d).
Proof.
  intros Hv Hd Hab. apply Rmult_le_compat_l; [exact Hv |].
  unfold Rdiv. apply Rmult_le_compat_r; [left; apply Rinv_0_lt_compat; exact Hd | exact Hab].
Qed.

Lemma rescale_sign (a vm d : R) :
  0 <= vm -> 0 < d -> (a <= 0 -> vm * (a / d) <= 0) /\ (0 <= a -> 0 <= vm * (a / d)).
Proof.
  intros Hv Hd. split; intros Ha.
  - replace 0 with (vm * (0 / d)) by (unfold Rdiv; ring). apply rescale_mono; assumption.
  - replace 0 with (vm * (0 / d)) at 1 by (unfold Rdiv; ring). apply rescale_mono; assumption.
Qed.

(** The deadband block is monotone: with [0 <= deadband < saturation] and a
    non-negative maximum, a larger input never gives a smaller velocity. *)
Theorem deadband_scale_monotone (db s vm r1 r2 : R) :
  0 <= db < s -> 0 <= vm -> r1 <= r2 ->
  deadband_scale db s vm r1 <= deadband_scale db s vm r2.
Proof.
  intros Hdb Hvm H12. unfold deadband_scale, apply_deadband.
  assert (Hd : 0 < s - db) by lra.
  destruct (Rlt_dec db (Rabs r1)) as [H1 | H1], (Rlt_dec db (Rabs r2)) as [H2 | H2]; simpl.
  - apply rescale_mono; [exact Hvm | exact Hd |].
    revert H1 H2; split_cases; lra.
  - apply (rescale_sign _ vm (s - db) Hvm Hd).
    revert H1 H2; split_cases; lra.
  - apply (rescale_sign _ vm (s - db) Hvm Hd).
    revert H1 H2; split_cases; lra.
  - lra.
Qed.

Lemma deadband_scale_monotone_witness :
  (0 <= 0.2 < 0.5) /\ 0 <= 0.2 /\ 0.3 <= 0.4 /\
  deadband_scale 0.2 0.5 0.2 0.3 <= deadband_scale 0.2 0.5 0.2 0.4.
Proof.
  assert (H1 : 0 <= 0.2 < 0.5) by lra.
  assert (H2 : 0 <= 0.2) by lra.
  assert (H3 : 0.3 <= 0.4) by lra.
  split; [exact H1 | split; [exact H2 | split; [exact H3 |]]].
  exact (deadband_scale_monotone 0.2 0.5 0.2 0.3 0.4 H1 H2 H3).
Defined.

(** ** Calibration with a still operator *)

Lemma unit_vector_unit (q : quat) : qdot q q = 1 -> unit_vector q = q.
Proof.
  intros H. unfold unit_vector. rewrite H, sqrt_1, Rinv_1.
  destruct q as [a b c d]. unfold qscale; simpl. apply f_equal4; ring.
Qed.

Lemma slerp_same_unit (q : quat) (f : R) : qdot q q = 1 -> quaternion_slerp q q f = q.
Proof.
  intros H. unfold quaternion_slerp. rewrite (unit_vector_unit q H).
  destruct (Req_dec_T f 0); [reflexivity |].
  destruct (Req_dec_T f 1); [reflexivity |].
  rewrite H. destruct (Rlt_dec (Rabs (Rabs 1 - 1)) EPS) as [_ | Hn]; [reflexivity |].
  exfalso. apply Hn. rewrite Rabs_R1, Rminus_diag, Rabs_R0.
  unfold EPS. apply Rmult_lt_0_compat; [lra |]. apply Rinv_0_lt_compat, pow_lt. lra.
Qed.

Lemma spec_avg_constant (samples : list quat) (q : quat) (k : nat) :
  qdot q q = 1 -> Forall (fun s => s = q) samples ->
  (1 <= k <= List.length samples)%nat -> spec_avg samples k = q.
Proof.
  intros Hq Hall. rewrite Forall_forall in Hall.
  induction k as [| k IH]; intros Hk; [lia |].
  destruct k as [| k].
  - simpl. apply Hall. apply nth_In. lia.
  - rewrite spec_avg_step by lia. rewrite IH by lia.
    rewrite (Hall (nth (S k) samples (Quat 0 0 0 1))) by (apply nth_In; lia).
    apply slerp_same_unit. exact Hq.
Qed.

(** When every sample fetched during the window is the same unit quaternion
    [q], calibration succeeds and stores [q] itself, however many samples
    were averaged. *)
Theorem calibration_constant_samples (st : TorsoControl) (start : R) (pos : vec3)
    (q : quat) (ts : list (R * (vec3 * quat))) (now_end : R) (l_end : lookup)
    (rest : list (R * lookup)) :
  qdot q q = 1 ->
  Forall (fun tp => fst tp - start < calibration_time (params st)) ts ->
  Forall (fun tp => sample_of tp = q) ts ->
  calibration_time (params st) <= now_end - start ->
  calibrateJoystickPose st start (Some (pos, q)) (map fetched ts ++ (now_end, l_end) :: rest)
  = (true, set_joystick_quaternion st q).
Proof.
  intros Hq Hin Hs Hend. unfold calibrateJoystickPose.
  rewrite (calibration_prefix st start q ts _ Hin).
  rewrite (spec_avg_constant (q :: map sample_of ts) q); [| exact Hq | |].
  - simpl. destruct (Rlt_dec (now_end - start) (calibration_time (params st))); [lra |].
    reflexivity.
  - constructor; [reflexivity |]. rewrite Forall_map. exact Hs.
  - simpl. rewrite length_map. lia.
Qed.

Lemma calibration_constant_samples_witness :
  qdot (Quat 0 0 0 1) (Quat 0 0 0 1) = 1 /\
  Forall (fun tp => fst tp - 0 < calibration_time (params default_node))
    [(1, (Vec3 0 0 0, Quat 0 0 0 1)); (2, (Vec3 0 0 0, Quat 0 0 0 1))] /\
  Forall (fun tp => sample_of tp = Quat 0 0 0 1)
    [(1, (Vec3 0 0 0, Quat 0 0 0 1)); (2, (Vec3 0 0 0, Quat 0 0 0 1))] /\
  calibration_time (params default_node) <= 5 - 0 /\
  calibrateJoystickPose default_node 0 (Some (Vec3 0 0 0, Quat 0 0 0 1))
    (map fetched [(1, (Vec3 0 0 0, Quat 0 0 0 1)); (2, (Vec3 0 0 0, Quat 0 0 0 1))]
     ++ [(5, None)])
  = (true, set_joystick_quaternion default_node (Quat 0 0 0 1)).
Proof.
  assert (H1 : qdot (Quat 0 0 0 1) (Quat 0 0 0 1) = 1) by (unfold qdot; simpl; ring).
  assert (H2 : Forall (fun tp => fst tp - 0 < calibration_time (params default_node))
                 [(1, (Vec3 0 0 0, Quat 0 0 0 1)); (2, (Vec3 0 0 0, Quat 0 0 0 1))])
    by (rewrite default_node_value; repeat constructor; simpl; lra).
  assert (H3 : Forall (fun tp => sample_of tp = Quat 0 0 0 1)
                 [(1, (Vec3 0 0 0, Quat 0 0 0 1)); (2, (Vec3 0 0 0, Quat 0 0 0 1))])
    by (repeat constructor).
  assert (H4 : calibration_time (params default_node) <= 5 - 0)
    by (rewrite default_node_value; simpl; lra).
  split; [exact H1 | split; [exact H2 | split; [exact H3 | split; [exact H4 |]]]].
  exact (calibration_constant_samples default_node 0 (Vec3 0 0 0) (Quat 0 0 0 1) _ 5 None []
           H1 H2 H3 H4).
Defined.
